(** * EuroProxyArchitectureMap: the geometry helpers and the connector router

    A shallow embedding of the pure layout code of
    [src/EuroProxyArchitectureMap.tsx]: the point and rectangle helpers
    ([midpoint], [rectCenter], [rectEdges], [anchorPoint], [standoff]), the
    two SVG path builders ([buildLinePath], [buildPolylinePath]) and the
    [routed] closure of the main component, which the specification calls
    [routeConnector].

    A TypeScript [number] is an IEEE-754 binary64 value.  The functions are
    written once over a small interface of arithmetic operations
    ([Number]) and read at two instances:
    - [binary64]: Rocq's primitive floats, the arithmetic the program runs;
    - [exact]: the rationals [Qc], the arithmetic of the specification's
      "real-valued coordinates" (every finite binary64 value is a rational).

    Two points are equal when their coordinates are: for binary64, the same
    value, [+0] and [-0] being two values and NaN one.
 *)

From Stdlib Require Import Bool List ZArith Lia QArith Qround Qcanon.
From Stdlib Require Import Ascii String DecimalString Floats.
Import ListNotations.

Set Warnings "-inexact-float".

Local Open Scope list_scope.
Local Open Scope string_scope.

(** ** Numbers *)

(** The arithmetic the source performs on [number]s, and the numeric
    literals it writes ([0.5], [2], [28]); [lit_0] is the literal [0] of the
    properties about a zero stand-off distance. *)
Class Number (num : Type) : Type := {
  add : num -> num -> num;
  sub : num -> num -> num;
  mul : num -> num -> num;
  div : num -> num -> num;
  lit_0 : num;
  lit_0_5 : num;
  lit_2 : num;
  lit_28 : num
}.

Declare Scope number_scope.
Delimit Scope number_scope with num.
Infix "+" := add : number_scope.
Infix "-" := sub : number_scope.
Infix "*" := mul : number_scope.
Infix "/" := div : number_scope.

(** The program's numbers: binary64 with round-to-nearest-even. *)
#[export] Instance binary64 : Number float := {
  add := PrimFloat.add;
  sub := PrimFloat.sub;
  mul := PrimFloat.mul;
  div := PrimFloat.div;
  lit_0 := 0%float;
  lit_0_5 := 0.5%float;
  lit_2 := 2%float;
  lit_28 := 28%float
}.

(** Exact arithmetic on rationals in lowest terms. *)
#[export] Instance exact : Number Qc := {
  add := Qcplus;
  sub := Qcminus;
  mul := Qcmult;
  div := Qcdiv;
  lit_0 := Q2Qc 0;
  lit_0_5 := Q2Qc (1 # 2);
  lit_2 := Q2Qc 2;
  lit_28 := Q2Qc 28
}.

(** ** Types *)

(** [type Pt = { x: number; y: number }] *)
Record Pt (num : Type) : Type := mkPt { x : num; y : num }.
Arguments mkPt {num} _ _.
Arguments x {num} _.
Arguments y {num} _.

(** [type Rect = { x: number; y: number; w: number; h: number }], with
    [x, y] the top-left corner.  The fields carry the prefix [r] because
    [x] and [y] are the projections of [Pt]. *)
Record Rect (num : Type) : Type := mkRect { rx : num; ry : num; rw : num; rh : num }.
Arguments mkRect {num} _ _ _ _.
Arguments rx {num} _.
Arguments ry {num} _.
Arguments rw {num} _.
Arguments rh {num} _.

(** The object [rectEdges] returns. *)
Record Edges (num : Type) : Type :=
  mkEdges { left : num; right : num; top : num; bottom : num }.
Arguments mkEdges {num} _ _ _ _.
Arguments left {num} _.
Arguments right {num} _.
Arguments top {num} _.
Arguments bottom {num} _.

(** [type Side = "top" | "right" | "bottom" | "left"].  The union type
    exists at compile time only; what reaches the [switch] statements at
    run time is a string, and both switches have a [default] branch. *)
Definition Side : Type := string.

(** ** Geometry helpers *)

Section Geometry.

Context {num : Type} `{Number num}.
Local Open Scope number_scope.

Definition midpoint (from to : Pt num) : Pt num :=
  {| x := x from + (x to - x from) * lit_0_5;
     y := y from + (y to - y from) * lit_0_5 |}.

Definition rectCenter (r : Rect num) : Pt num :=
  {| x := rx r + rw r / lit_2; y := ry r + rh r / lit_2 |}.

Definition rectEdges (r : Rect num) : Edges num :=
  {| left := rx r;
     right := rx r + rw r;
     top := ry r;
     bottom := ry r + rh r |}.

Definition anchorPoint (r : Rect num) (side : Side) : Pt num :=
  let c := rectCenter r in
  let e := rectEdges r in
  if String.eqb side "top" then {| x := x c; y := top e |}
  else if String.eqb side "right" then {| x := right e; y := y c |}
  else if String.eqb side "bottom" then {| x := x c; y := bottom e |}
  else if String.eqb side "left" then {| x := left e; y := y c |}
  else c.

Definition standoff (p : Pt num) (side : Side) (d : num) : Pt num :=
  if String.eqb side "top" then {| x := x p; y := y p - d |}
  else if String.eqb side "right" then {| x := x p + d; y := y p |}
  else if String.eqb side "bottom" then {| x := x p; y := y p + d |}
  else if String.eqb side "left" then {| x := x p - d; y := y p |}
  else p.

(** The closure [routed] of the main component (the specification's
    [routeConnector]); [[start, startOut, ...via, endOut, end]] spreads
    [via] between the two stand-off points. *)
Definition routed (startRect : Rect num) (startSide : Side)
           (endRect : Rect num) (endSide : Side) (via : list (Pt num))
  : list (Pt num) :=
  let start := anchorPoint startRect startSide in
  let end_ := anchorPoint endRect endSide in
  let startOut := standoff start startSide lit_28 in
  let endOut := standoff end_ endSide lit_28 in
  ([start; startOut] ++ via ++ [endOut; end_])%list.

End Geometry.

(** ** Numbers in template literals *)

(** A template literal [`${n}`] converts the number [n] with the run-time's
    [Number::toString].  The path builders take the conversion as an
    interface; [Number_toString] below is its instance for binary64. *)
Class ToString (num : Type) : Type := toString : num -> string.

Module ECMAScript.

(** The decimal digits of a natural number, without leading zeros. *)
Definition digits (n : Z) : string := NilZero.string_of_uint (N.to_uint (Z.to_N n)).

Fixpoint zeros (n : nat) : string :=
  match n with
  | O => ""
  | S n => String "0" (zeros n)
  end.

Definition pow10 (j : Z) : Q := Qpower 10 j.

Definition Qltb (a b : Q) : bool :=
  match Qcompare a b with Lt => true | _ => false end.

Definition Qleb (a b : Q) : bool :=
  match Qcompare a b with Gt => false | _ => true end.

(** The value of the finite binary64 number with mantissa [m] and
    exponent [e]. *)
Definition value (m : positive) (e : Z) : Q := (inject_Z (Zpos m) * Qpower 2 e)%Q.

Fixpoint lower (fuel : nat) (v : Q) (n : Z) : Z :=
  match fuel with
  | O => n
  | S fuel => if Qltb v (pow10 (n - 1)) then lower fuel v (n - 1) else n
  end.

Fixpoint raise (fuel : nat) (v : Q) (n : Z) : Z :=
  match fuel with
  | O => n
  | S fuel => if Qleb (pow10 n) v then raise fuel v (n + 1) else n
  end.

(** The [n] with [10^(n-1) <= m * 2^e < 10^n], searched from an estimate
    of the decimal logarithm; binary64 has [-323 <= n <= 309]. *)
Definition decimal_exponent (m : positive) (e : Z) : Z :=
  let v := value m e in
  let est := (((Z.log2 (Zpos m) + e) * 1233) / 4096)%Z in
  raise 700 v (lower 700 v est).

(** Whether the decimal [c] converts back to the binary64 number
    [m * 2^e]: it lies between the midpoints to the two neighbouring
    binary64 numbers, the midpoints included when [m] is even. *)
Definition rounds_to (m : positive) (e : Z) (c : Q) : bool :=
  let v := value m e in
  let above := value (m + 1) e in
  let below := if (Z.eqb (Zpos m) (2 ^ 52) && Z.ltb (-1074) e)%bool
               then value (2 * m - 1) (e - 1)
               else (inject_Z (Zpos m - 1) * Qpower 2 e)%Q in
  let lo := ((below + v) / 2)%Q in
  let hi := ((v + above) / 2)%Q in
  if Z.even (Zpos m) then (Qleb lo c && Qleb c hi)%bool
  else (Qltb lo c && Qltb c hi)%bool.

Definition Qabs_diff (a b : Q) : Q := if Qleb a b then (b - a)%Q else (a - b)%Q.

(** The integers [s], [n] of [Number::toString]: the fewest digits [k]
    with [s * 10^(n-k)] converting back to the number, and among those
    the [s] closest to it. *)
Fixpoint shortest (fuel : nat) (k : Z) (m : positive) (e : Z) (n : Z) : Z * Z :=
  let v := value m e in
  let scale := pow10 (n - k) in
  let s0 := Qfloor (v / scale) in
  let s1 := (s0 + 1)%Z in
  let c0 := (inject_Z s0 * scale)%Q in
  let c1 := (inject_Z s1 * scale)%Q in
  let ok0 := rounds_to m e c0 in
  let ok1 := rounds_to m e c1 in
  let pick0 := (s0, n) in
  let pick1 := if Z.eqb s1 (10 ^ k) then (10 ^ (k - 1), n + 1)%Z else (s1, n) in
  match fuel with
  | O => pick0
  | S fuel =>
      if (ok0 && ok1)%bool then
        match Qcompare (Qabs_diff c0 v) (Qabs_diff c1 v) with
        | Lt => pick0
        | Gt => pick1
        | Eq => if Z.even s0 then pick0 else pick1
        end
      else if ok0 then pick0
      else if ok1 then pick1
      else shortest fuel (k + 1)%Z m e n
  end.

Definition sci_exponent (e : Z) : string :=
  if (0 <=? e)%Z then "+" ++ digits e else "-" ++ digits (- e).

(** Plain notation for [0 < n <= 21] and [-6 < n <= 0], exponent
    notation otherwise. *)
Definition layout (s n : Z) : string :=
  let ds := digits s in
  let k := Z.of_nat (String.length ds) in
  if ((k <=? n) && (n <=? 21))%Z%bool then ds ++ zeros (Z.to_nat (n - k))
  else if ((0 <? n) && (n <=? 21))%Z%bool then
    substring 0 (Z.to_nat n) ds ++ "." ++ substring (Z.to_nat n) (Z.to_nat (k - n)) ds
  else if ((-6 <? n) && (n <=? 0))%Z%bool then "0." ++ zeros (Z.to_nat (- n)) ++ ds
  else if (k =? 1)%Z then ds ++ "e" ++ sci_exponent (n - 1)
  else substring 0 1 ds ++ "." ++ substring 1 (Z.to_nat (k - 1)) ds
       ++ "e" ++ sci_exponent (n - 1).

(** [Number::toString(x, 10)] of ECMAScript, with the digits every
    engine prints (the closest shortest decimal). *)
Definition Number_toString (f : float) : string :=
  match Prim2SF f with
  | S754_nan => "NaN"
  | S754_zero _ => "0"
  | S754_infinity false => "Infinity"
  | S754_infinity true => "-Infinity"
  | S754_finite sign m e =>
      let '(s, n) := shortest 17 1 m e (decimal_exponent m e) in
      (if sign then "-" else "") ++ layout s n
  end.

End ECMAScript.

#[export] Instance binary64_toString : ToString float := ECMAScript.Number_toString.

(** ** Path builders *)

(** How a call ends: with a value, or with the [TypeError] JavaScript
    throws when a property of [undefined] is read. *)
Inductive completion (A : Type) : Type :=
| Returned (a : A)
| TypeError.
Arguments Returned {A} a.
Arguments TypeError {A}.

Section Paths.

Context {num : Type} `{ToString num}.

(** [`M ${from.x} ${from.y} L ${to.x} ${to.y}`] *)
Definition buildLinePath (from to : Pt num) : string :=
  "M " ++ toString (x from) ++ " " ++ toString (y from)
  ++ " L " ++ toString (x to) ++ " " ++ toString (y to).

(** The callback of [rest.map]: [`L ${p.x} ${p.y}`]. *)
Definition lineTo (p : Pt num) : string :=
  "L " ++ toString (x p) ++ " " ++ toString (y p).

(** [Array.prototype.join] on an array of strings is [String.concat].
    The destructuring [const [first, ...rest] = points] of an empty array
    binds [first] to [undefined], and reading [first.x] would throw: that
    is the [[]] branch, behind the length test. *)
Definition buildPolylinePath (points : list (Pt num)) : completion string :=
  if (List.length points <? 2)%nat then Returned ""
  else
    match points with
    | [] => TypeError
    | first :: rest =>
        Returned (("M " ++ toString (x first) ++ " " ++ toString (y first) ++ " ")
                  ++ String.concat " " (map lineTo rest))
    end.

(** The two path strings the [Flow] component computes from its [points]
    property: [d] and [rev], the latter from [points.slice().reverse()],
    a reversed copy. *)
Definition Flow_paths (points : list (Pt num)) : completion string * completion string :=
  let d := buildPolylinePath points in
  let rev_ := buildPolylinePath (List.rev points) in
  (d, rev_).

End Paths.

(** ** Reading a path string back *)

(** What the consumer of a path string, an SVG [path] element, draws: the
    commands of the string, separated by single spaces, [M x y] followed by
    any number of [L x y].  [path_vertices] gives the coordinate pairs in
    drawing order, as written in the string, and [None] for a string that
    is no such path. *)
Fixpoint split_spaces (s : string) : list string :=
  match s with
  | EmptyString => [EmptyString]
  | String c s' =>
      if Ascii.eqb c " "%char then EmptyString :: split_spaces s'
      else match split_spaces s' with
           | [] => [String c EmptyString]
           | t :: ts => String c t :: ts
           end
  end.

Fixpoint read_lines (tokens : list string) : option (list (string * string)) :=
  match tokens with
  | [] => Some []
  | cmd :: px :: py :: tokens' =>
      if String.eqb cmd "L" then option_map (cons (px, py)) (read_lines tokens')
      else None
  | _ => None
  end.

Definition path_vertices (d : string) : option (list (string * string)) :=
  match split_spaces d with
  | cmd :: px :: py :: tokens =>
      if String.eqb cmd "M" then option_map (cons (px, py)) (read_lines tokens)
      else None
  | _ => None
  end.

Fixpoint no_space (s : string) : bool :=
  match s with
  | EmptyString => true
  | String c s' => negb (Ascii.eqb c " "%char) && no_space s'
  end.

(** The coordinates of a point as a template literal writes them. *)
Definition written {num : Type} `{ToString num} (p : Pt num) : string * string :=
  (toString (x p), toString (y p)).

Definition spaceless {num : Type} `{ToString num} (p : Pt num) : bool :=
  no_space (toString (x p)) && no_space (toString (y p)).


(** The words of one [L] command, and of a whole path. *)
Definition lineTo_tokens {num : Type} `{ToString num} (p : Pt num) : list string :=
  ["L"; toString (x p); toString (y p)].

Definition path_tokens {num : Type} `{ToString num}
           (first : Pt num) (rest : list (Pt num)) : list string :=
  "M" :: toString (x first) :: toString (y first) :: flat_map lineTo_tokens rest.

(** ** The tunnel connector of the diagram *)

(** The boxes of the two nodes and the connector between them, as the main
    component lays them out: [routed(bouncer, "right", vault, "left", [])]. *)
Definition bouncer : Rect float := (mkRect 480 350 540 320)%float.
Definition vault : Rect float := (mkRect 1060 350 540 320)%float.
Definition wgPts : list (Pt float) := routed bouncer "right" vault "left" [].

(** ** The state of the view and what it shows *)

(** [useState<1 | 2 | 3 | 4 | 5 | 6>(6)] and [useState(true)].  The type of
    [focus] is erased at run time, where [focus] is a number; the numbers
    the program stores in it are integers. *)
Record ViewState : Type := mkViewState { focus : Z; overviewMode : bool }.

Definition initialState : ViewState := {| focus := 6; overviewMode := true |}.

(** The array [steps]: the number and the label of each chip. *)
Definition steps : list (Z * string) :=
  [(1, "Hardening"); (2, "WireGuard tunnel"); (3, "Lock the Vault");
   (4, "Custom DNS"); (5, "Proxy + WAF"); (6, "CrowdSec")]%Z.

(** The object [focusCopy], an entry [(title, body)] per key. *)
Definition focusCopy : list (Z * (string * string)) :=
  [(1, ("Phase 1: Procurement & Hardening",
        "We lock down SSH and firewalls first. The Bouncer is the only public-facing door, so it must be hardened. The Vault is stricter: no public web traffic, only private tunnel traffic."));
   (2, ("Phase 2: The Secret Tunnel",
        "WireGuard is the private hallway between the Bouncer and the Vault. They speak over an encrypted channel using internal IPs like 10.0.0.1 and 10.0.0.2."));
   (3, ("Phase 3: Locking The Vault",
        "The Vault becomes unreachable from the public Internet. Its firewall drops public inbound web traffic. Only the Bouncer can reach it through WireGuard."));
   (4, ("Phase 4: Custom Nameservers",
        "We publish glue records so the world can reach ns1/ns2.securelounge.co.uk. Then we run authoritative DNS on Node A."));
   (5, ("Phase 5: Reverse Proxy & WAF",
        "BunkerWeb is the bouncer at the door: it receives HTTPS, filters traffic, and forwards clean requests through the tunnel to the Vault."));
   (6, ("Phase 6: Active Defense",
        "CrowdSec watches Node A logs, detects hostile behavior, and bans attackers. Node A stays the only visible public surface."))]%Z.

(** [focusCopy[focus]]: the entry of a key, [None] for the [undefined] of a
    key the object does not have (whose [.title] would throw). *)
Fixpoint lookup {A : Type} (key : Z) (entries : list (Z * A)) : option A :=
  match entries with
  | [] => None
  | (k, v) :: entries' => if (k =? key)%Z then Some v else lookup key entries'
  end.

(** The object [show]. *)
Record Show : Type := mkShow {
  hardening : bool;
  wireguard : bool;
  lockVault : bool;
  dns : bool;
  waf : bool;
  crowdsec : bool
}.

Definition show (s : ViewState) : Show :=
  {| hardening := overviewMode s || (focus s >=? 1)%Z;
     wireguard := overviewMode s || (focus s >=? 2)%Z;
     lockVault := overviewMode s || (focus s >=? 3)%Z;
     dns := overviewMode s || (focus s >=? 4)%Z;
     waf := overviewMode s || (focus s >=? 5)%Z;
     crowdsec := overviewMode s || (focus s >=? 6)%Z |}.

(** The flags in the order of the phases. *)
Definition flags (sh : Show) : list bool :=
  [hardening sh; wireguard sh; lockVault sh; dns sh; waf sh; crowdsec sh].

(** What the diagram draws besides the boxes, in the order of the markup,
    each with the flag that guards it: the five [Flow]s by their [id] and
    [show] property, and the loop of the last phase. *)
Definition drawn (sh : Show) : list (string * bool) :=
  [("dns", dns sh); ("https", waf sh); ("wg", wireguard sh);
   ("acme", waf sh); ("blocked", lockVault sh); ("crowdsec", crowdsec sh)].

Definition visible (sh : Show) : list string :=
  map fst (filter snd (drawn sh)).

(** The click handlers: [() => setFocus(s.n)] of the chip of a step,
    [() => setOverviewMode(true)] and [() => setOverviewMode(false)] of the
    two toggles. *)
Inductive Click : Type :=
| ClickStep (step : Z * string)
| ClickOverview
| ClickPhaseMode.

Definition click (s : ViewState) (c : Click) : ViewState :=
  match c with
  | ClickStep step => {| focus := fst step; overviewMode := overviewMode s |}
  | ClickOverview => {| focus := focus s; overviewMode := true |}
  | ClickPhaseMode => {| focus := focus s; overviewMode := false |}
  end.

(** A chip exists for each element of [steps] and for nothing else. *)
Definition clickable (c : Click) : Prop :=
  match c with
  | ClickStep step => In step steps
  | _ => True
  end.

(** The states the view reaches from its initial state. *)
Inductive reachable : ViewState -> Prop :=
| reachable_initial : reachable initialState
| reachable_click (s : ViewState) (c : Click) :
    reachable s -> clickable c -> reachable (click s c).

(** [active={focus === s.n}] of the chips: which chips are lit. *)
Definition activeSteps (s : ViewState) : list (Z * string) :=
  filter (fun step => (focus s =? fst step)%Z) steps.

(** ** The ports of a box *)

(** The array [ports] of [PortDots]: each side with its port, where the two
    dots of the side are drawn. *)
Definition PortDots {num : Type} `{Number num} (rect : Rect num) : list (Side * Pt num) :=
  [("top", anchorPoint rect "top");
   ("right", anchorPoint rect "right");
   ("bottom", anchorPoint rect "bottom");
   ("left", anchorPoint rect "left")].

(** The four sides with a [case] of their own in the two switches. *)
Definition recognized (side : Side) : Prop :=
  side = "top" \/ side = "right" \/ side = "bottom" \/ side = "left".

(** ** The layout of the diagram *)

(** The other two boxes, the bus lanes and the other four connectors of the
    main component. *)
Definition internet : Rect float := (mkRect 90 160 340 210)%float.
Definition ca : Rect float := (mkRect 1180 70 360 160)%float.

Definition topBusY : float := 45%float.
Definition midLaneY : float := 280%float.
Definition bottomBusY : float := 740%float.

Definition dnsPts : list (Pt float) :=
  routed internet "top" bouncer "top"
         [ {| x := x (anchorPoint internet "top"); y := topBusY |};
           {| x := x (anchorPoint bouncer "top"); y := topBusY |} ].

Definition httpsPts : list (Pt float) :=
  routed internet "right" bouncer "left"
         [ {| x := 430%float; y := midLaneY |};
           {| x := (x (anchorPoint bouncer "left") - 35)%float; y := midLaneY |} ].

Definition acmePts : list (Pt float) :=
  routed bouncer "top" ca "left"
         [ {| x := x (anchorPoint bouncer "top"); y := topBusY |};
           {| x := (x (anchorPoint ca "left") - 35)%float; y := topBusY |};
           {| x := (x (anchorPoint ca "left") - 35)%float;
              y := y (anchorPoint ca "left") |} ].

Definition blockedPts : list (Pt float) :=
  routed internet "bottom" vault "bottom"
         [ {| x := x (anchorPoint internet "bottom"); y := bottomBusY |};
           {| x := x (anchorPoint vault "bottom"); y := bottomBusY |} ].

(** The boxes and the connectors in the order the markup draws them. *)
Definition boxes : list (Rect float) := [internet; bouncer; vault; ca].

Definition connectors : list (list (Pt float)) :=
  [dnsPts; httpsPts; wgPts; acmePts; blockedPts].

(** The segments a polyline draws: each point joined to the next. *)
Fixpoint segments {A : Type} (points : list A) : list (A * A) :=
  match points with
  | a :: (b :: _) as rest => (a, b) :: segments rest
  | _ => []
  end.

(** Both ends of the segment lie on the outer side of the line of one edge
    of the box (on the line counts as outer), so that no point of the
    segment is inside the box. *)
Definition keeps_off (r : Rect float) (segment : Pt float * Pt float) : bool :=
  let e := rectEdges r in
  let (a, b) := segment in
  ((x a <=? left e) && (x b <=? left e)
   || (right e <=? x a) && (right e <=? x b)
   || (y a <=? top e) && (y b <=? top e)
   || (bottom e <=? y a) && (bottom e <=? y b))%float%bool.

(** Reads the operations of [Number] at the instance [exact]. *)
Ltac exact_arith := cbv [add sub mul div lit_0 lit_0_5 lit_2 lit_28 exact].

(** * Properties *)

(** ** The router *)

Section RouterProperties.

Context {num : Type} `{Number num}.

(** C1: [routed] returns the start port, the start port moved outward by
    28, the way points in the order given, the end port moved outward by
    28 and the end port; without way points these are exactly four
    points. *)
Theorem routed_is_ports_standoffs_and_via
        (startRect : Rect num) (startSide : Side)
        (endRect : Rect num) (endSide : Side) (via : list (Pt num)) :
  routed startRect startSide endRect endSide via
  = ([anchorPoint startRect startSide;
      standoff (anchorPoint startRect startSide) startSide lit_28]
     ++ via
     ++ [standoff (anchorPoint endRect endSide) endSide lit_28;
         anchorPoint endRect endSide])%list
  /\ List.length (routed startRect startSide endRect endSide via)
     = (4 + List.length via)%nat
  /\ routed startRect startSide endRect endSide []
     = [anchorPoint startRect startSide;
        standoff (anchorPoint startRect startSide) startSide lit_28;
        standoff (anchorPoint endRect endSide) endSide lit_28;
        anchorPoint endRect endSide].
Proof.
  unfold routed. repeat split.
  cbn [List.app List.length]. rewrite List.length_app. cbn [List.length]. lia.
Qed.

(** C2: whatever the way points, the sequence [routed] returns starts at
    the start port and ends at the end port. *)
Theorem routed_first_and_last
        (startRect : Rect num) (startSide : Side)
        (endRect : Rect num) (endSide : Side) (via : list (Pt num)) :
  List.hd_error (routed startRect startSide endRect endSide via)
  = Some (anchorPoint startRect startSide)
  /\ List.hd_error (List.rev (routed startRect startSide endRect endSide via))
     = Some (anchorPoint endRect endSide).
Proof.
  unfold routed. split.
  - reflexivity.
  - rewrite !List.rev_app_distr. reflexivity.
Qed.

End RouterProperties.

(** ** Ports *)

Section PortProperties.

Context {num : Type} `{Number num}.
Local Open Scope number_scope.

(** C3: the four ports are the midpoints of the four edges, each on the
    line of its edge as [rectEdges] gives it; the top and bottom ports have
    the centre's [x], the left and right ports the centre's [y].  The
    equations hold for every rectangle, of positive size or not. *)
Theorem anchorPoint_edge_midpoints (r : Rect num) :
  (anchorPoint r "top" = {| x := rx r + rw r / lit_2; y := ry r |}
   /\ anchorPoint r "bottom" = {| x := rx r + rw r / lit_2; y := ry r + rh r |}
   /\ anchorPoint r "left" = {| x := rx r; y := ry r + rh r / lit_2 |}
   /\ anchorPoint r "right" = {| x := rx r + rw r; y := ry r + rh r / lit_2 |})
  /\ (y (anchorPoint r "top") = top (rectEdges r)
      /\ y (anchorPoint r "bottom") = bottom (rectEdges r)
      /\ x (anchorPoint r "left") = left (rectEdges r)
      /\ x (anchorPoint r "right") = right (rectEdges r))
  /\ (x (anchorPoint r "top") = x (rectCenter r)
      /\ x (anchorPoint r "bottom") = x (rectCenter r)
      /\ y (anchorPoint r "left") = y (rectCenter r)
      /\ y (anchorPoint r "right") = y (rectCenter r)).
Proof.
  repeat split.
Qed.

(** C6: a side that is none of the four names takes the [default] branch
    of the [switch]: the port is the centre of the rectangle. *)
Theorem anchorPoint_unrecognized_side (r : Rect num) (side : Side) :
  side <> "top" -> side <> "right" -> side <> "bottom" -> side <> "left" ->
  anchorPoint r side = rectCenter r.
Proof.
  intros Ht Hr Hb Hl. unfold anchorPoint.
  apply String.eqb_neq in Ht, Hr, Hb, Hl.
  rewrite Ht, Hr, Hb, Hl. reflexivity.
Qed.

End PortProperties.

Lemma anchorPoint_unrecognized_side_witness :
  "centre" <> "top" /\ "centre" <> "right" /\ "centre" <> "bottom" /\ "centre" <> "left"
  /\ anchorPoint (mkRect 100 50 200 100)%float "centre"
     = rectCenter (mkRect 100 50 200 100)%float.
Proof.
  refine (conj _ (conj _ (conj _ (conj _ _)))); try discriminate.
  apply (anchorPoint_unrecognized_side (mkRect 100 50 200 100)%float "centre");
    discriminate.
Defined.

(** ** Arithmetic of the two instances *)



Lemma Qc_div_2 (u : Qc) : (u / Q2Qc 2 = u * Q2Qc (1 # 2))%Qc.
Proof.
  unfold Qcdiv. f_equal; try (apply Qc_is_canon; reflexivity).
Qed.


(** Adding [+0] changes no binary64 value but [-0], which becomes [+0]. *)
Lemma binary64_add_0 (a : float) : a <> neg_zero -> (a + 0)%float = a.
Proof.
  intros Hz. apply Prim2SF_inj. rewrite add_spec.
  change (Prim2SF 0%float) with (S754_zero false).
  destruct (Prim2SF a) as [[|]| [|] | |s m e] eqn:E; try reflexivity.
  exfalso. apply Hz. apply Prim2SF_inj. rewrite E. reflexivity.
Qed.

(** Two binary64 values that [PrimFloat.eqb] tells apart are different. *)
Lemma binary64_eqb_false_neq (a b : float) :
  PrimFloat.eqb a b = false -> PrimFloat.eqb b b = true -> a <> b.
Proof.
  intros Hab Hbb E. rewrite E in Hab. rewrite Hab in Hbb. discriminate.
Qed.

(** ** Stand-off points *)

Section StandoffProperties.

Context {num : Type} `{Number num}.

(** A side shifts one coordinate and copies the other. *)
Lemma standoff_other_coordinate (p : Pt num) (d : num) :
  x (standoff p "top" d) = x p /\ x (standoff p "bottom" d) = x p
  /\ y (standoff p "left" d) = y p /\ y (standoff p "right" d) = y p.
Proof.
  repeat split.
Qed.

End StandoffProperties.




(** The point of the restriction on [-0]: to the right of [(-0, 0)] at
    distance [0] lies [(+0, 0)], and the two zeros are told apart by their
    reciprocals. *)
Example standoff_zero_of_negative_zero :
  standoff (mkPt neg_zero 0)%float "right" 0%float = (mkPt 0 0)%float
  /\ (1 / neg_zero)%float = neg_infinity /\ (1 / 0)%float = infinity.
Proof.
  vm_compute. repeat split.
Qed.



(** ** Midpoints *)



(** In exact arithmetic the four ports are the midpoints, in the sense of
    [midpoint], of the corners of their edges. *)
Lemma anchorPoint_midpoint_of_edge_exact (r : Rect Qc) :
  let tl := mkPt (rx r) (ry r) in
  let tr := mkPt (rx r + rw r)%num (ry r) in
  let bl := mkPt (rx r) (ry r + rh r)%num in
  let br := mkPt (rx r + rw r)%num (ry r + rh r)%num in
  anchorPoint r "top" = midpoint tl tr
  /\ anchorPoint r "bottom" = midpoint bl br
  /\ anchorPoint r "left" = midpoint tl bl
  /\ anchorPoint r "right" = midpoint tr br.
Proof.
  unfold anchorPoint, midpoint, rectCenter, rectEdges.
  cbn [String.eqb Ascii.eqb Bool.eqb x y top left right bottom]. exact_arith.
  rewrite !Qc_div_2. repeat split; f_equal; ring.
Qed.

(** ** Strings without spaces *)

Lemma append_assoc (a b c : string) : (a ++ b) ++ c = a ++ (b ++ c).
Proof.
  induction a as [| ch a IH]; simpl; [reflexivity | now rewrite IH].
Qed.

Lemma no_space_append (a b : string) :
  no_space (a ++ b) = no_space a && no_space b.
Proof.
  induction a as [| ch a IH]; simpl; [reflexivity |].
  rewrite IH. now rewrite andb_assoc.
Qed.

Lemma no_space_substring (s : string) :
  no_space s = true -> forall i j, no_space (substring i j s) = true.
Proof.
  induction s as [| ch s IH]; intros Hs i j.
  - destruct i, j; reflexivity.
  - simpl in Hs. apply andb_true_iff in Hs as [Hch Hs].
    destruct i as [| i]; simpl.
    + destruct j as [| j]; simpl; [reflexivity |].
      rewrite Hch. now apply IH.
    + now apply IH.
Qed.

Lemma split_spaces_not_nil (s : string) : split_spaces s <> [].
Proof.
  destruct s as [| ch s]; simpl; [discriminate |].
  destruct (Ascii.eqb ch " "); [discriminate |].
  destruct (split_spaces s); discriminate.
Qed.

(** A word without spaces is one token, and a word followed by a space is
    the first token of what the rest splits into. *)
Lemma split_spaces_word (t : string) :
  no_space t = true -> split_spaces t = [t].
Proof.
  induction t as [| ch t IH]; simpl; intros Ht; [reflexivity |].
  apply andb_true_iff in Ht as [Hch Ht].
  apply negb_true_iff in Hch. rewrite Hch, (IH Ht). reflexivity.
Qed.

Lemma split_spaces_cons (t s : string) :
  no_space t = true ->
  split_spaces (t ++ String " " s) = t :: split_spaces s.
Proof.
  induction t as [| ch t IH]; simpl; intros Ht; [reflexivity |].
  apply andb_true_iff in Ht as [Hch Ht].
  apply negb_true_iff in Hch. rewrite Hch, (IH Ht). reflexivity.
Qed.

(** Words without spaces, joined by single spaces, split into the same
    words. *)
Lemma split_spaces_concat (tokens : list string) :
  tokens <> [] -> forallb no_space tokens = true ->
  split_spaces (String.concat " " tokens) = tokens.
Proof.
  induction tokens as [| t ts IH]; intros Hne Hall; [congruence |].
  cbn [forallb] in Hall. apply andb_true_iff in Hall as [Ht Hts].
  destruct ts as [| t' ts].
  - cbn [String.concat]. now apply split_spaces_word.
  - change (split_spaces (t ++ String " " (String.concat " " (t' :: ts)))
            = t :: t' :: ts).
    rewrite split_spaces_cons by exact Ht.
    rewrite IH by (discriminate || exact Hts). reflexivity.
Qed.

Lemma concat_app (sep : string) (l1 l2 : list string) :
  l1 <> [] -> l2 <> [] ->
  String.concat sep (l1 ++ l2) = String.concat sep l1 ++ sep ++ String.concat sep l2.
Proof.
  induction l1 as [| a l1 IH]; intros H1 H2; [congruence |].
  destruct l1 as [| b l1].
  - destruct l2 as [| c l2]; [congruence | reflexivity].
  - change (String.concat sep ((a :: b :: l1) ++ l2))
      with (a ++ sep ++ String.concat sep ((b :: l1) ++ l2)).
    rewrite IH by (discriminate || exact H2).
    cbn [String.concat]. now rewrite !append_assoc.
Qed.

(** ** The path builders *)

Section PathProperties.

Context {num : Type} `{ToString num}.

Lemma lineTo_concat (p : Pt num) : lineTo p = String.concat " " (lineTo_tokens p).
Proof.
  reflexivity.
Qed.

Lemma lineTo_join (rest : list (Pt num)) :
  String.concat " " (map lineTo rest)
  = String.concat " " (flat_map lineTo_tokens rest).
Proof.
  induction rest as [| p rest IH]; [reflexivity |].
  destruct rest as [| q rest].
  - reflexivity.
  - change (flat_map lineTo_tokens (p :: q :: rest))
      with (lineTo_tokens p ++ flat_map lineTo_tokens (q :: rest))%list.
    rewrite concat_app by discriminate.
    rewrite <- IH. reflexivity.
Qed.

(** The string [buildPolylinePath] writes for [first :: rest] is the
    words of the path joined by single spaces. *)
Lemma polyline_concat (first : Pt num) (rest : list (Pt num)) :
  rest <> [] ->
  ("M " ++ toString (x first) ++ " " ++ toString (y first) ++ " ")
  ++ String.concat " " (map lineTo rest)
  = String.concat " " (path_tokens first rest).
Proof.
  intros Hrest. rewrite lineTo_join. unfold path_tokens.
  change ("M" :: toString (x first) :: toString (y first)
              :: flat_map lineTo_tokens rest)
    with (["M"; toString (x first); toString (y first)]
            ++ flat_map lineTo_tokens rest)%list.
  rewrite concat_app.
  - cbn [String.concat]. rewrite !append_assoc. reflexivity.
  - discriminate.
  - destruct rest; [congruence | discriminate].
Qed.

Lemma read_lines_tokens (rest : list (Pt num)) :
  read_lines (flat_map lineTo_tokens rest) = Some (map written rest).
Proof.
  induction rest as [| p rest IH]; [reflexivity |].
  cbn [flat_map lineTo_tokens List.app read_lines String.eqb Ascii.eqb Bool.eqb].
  rewrite IH. reflexivity.
Qed.

Lemma path_tokens_spaceless (first : Pt num) (rest : list (Pt num)) :
  forallb spaceless (first :: rest) = true ->
  forallb no_space (path_tokens first rest) = true.
Proof.
  cbn [forallb]. intros Hall. apply andb_true_iff in Hall as [Hf Hrest].
  unfold spaceless in Hf. apply andb_true_iff in Hf as [Hx Hy].
  unfold path_tokens. cbn [forallb]. rewrite Hx, Hy. cbn [no_space Ascii.eqb Bool.eqb negb andb].
  induction rest as [| p rest IH]; [reflexivity |].
  cbn [forallb] in Hrest. apply andb_true_iff in Hrest as [Hp Hrest].
  unfold spaceless in Hp. apply andb_true_iff in Hp as [Hpx Hpy].
  cbn [flat_map lineTo_tokens List.app forallb]. rewrite Hpx, Hpy.
  cbn [no_space Ascii.eqb Bool.eqb negb andb]. now apply IH.
Qed.

(** Reading back the path written for two or more points whose
    coordinates are written without spaces gives the points, in order. *)
Lemma polyline_vertices (first second : Pt num) (rest : list (Pt num)) :
  forallb spaceless (first :: second :: rest) = true ->
  exists d, buildPolylinePath (first :: second :: rest) = Returned d
            /\ path_vertices d = Some (map written (first :: second :: rest)).
Proof.
  intros Hall. eexists. split.
  - unfold buildPolylinePath. cbn [List.length Nat.ltb Nat.leb].
    rewrite polyline_concat by discriminate. reflexivity.
  - unfold path_vertices.
    rewrite split_spaces_concat.
    + unfold path_tokens. cbn [String.eqb Ascii.eqb Bool.eqb].
      rewrite read_lines_tokens. reflexivity.
    + discriminate.
    + now apply path_tokens_spaceless.
Qed.

(** C10: on two points the polyline builder returns the string of the
    line builder. *)
Theorem buildPolylinePath_pair_is_buildLinePath (a b : Pt num) :
  buildPolylinePath [a; b] = Returned (buildLinePath a b).
Proof.
  unfold buildPolylinePath, buildLinePath, lineTo.
  cbn [List.length Nat.ltb Nat.leb map String.concat].
  rewrite !append_assoc. reflexivity.
Qed.

End PathProperties.

(** ** Numbers are written without spaces *)

Module ECMAScriptFacts.
Import ECMAScript.

Lemma no_space_uint (d : Decimal.uint) : no_space (NilEmpty.string_of_uint d) = true.
Proof.
  induction d; simpl; assumption || reflexivity.
Qed.

Lemma no_space_digits (n : Z) : no_space (digits n) = true.
Proof.
  unfold digits, NilZero.string_of_uint.
  destruct (N.to_uint (Z.to_N n)) eqn:E; try reflexivity;
    rewrite <- E; apply no_space_uint.
Qed.

Lemma no_space_zeros (n : nat) : no_space (zeros n) = true.
Proof.
  induction n; simpl; assumption || reflexivity.
Qed.

Lemma no_space_sci_exponent (e : Z) : no_space (sci_exponent e) = true.
Proof.
  unfold sci_exponent. destruct (0 <=? e)%Z;
    rewrite no_space_append, no_space_digits; reflexivity.
Qed.

Lemma no_space_layout (s n : Z) : no_space (layout s n) = true.
Proof.
  unfold layout.
  repeat match goal with
         | |- context [if ?b then _ else _] => destruct b
         end;
    rewrite ?no_space_append, ?no_space_zeros, ?no_space_sci_exponent,
      ?no_space_digits, ?(no_space_substring _ (no_space_digits s));
    reflexivity.
Qed.

Lemma no_space_Number_toString (f : float) : no_space (Number_toString f) = true.
Proof.
  unfold Number_toString.
  destruct (Prim2SF f) as [[|] | [|] | | sign m e]; try reflexivity.
  destruct (shortest 17 1 m e (decimal_exponent m e)) as [s n].
  rewrite no_space_append, no_space_layout. now destruct sign.
Qed.

End ECMAScriptFacts.

Lemma binary64_spaceless (points : list (Pt float)) : forallb spaceless points = true.
Proof.
  induction points as [| p points IH]; [reflexivity |].
  cbn [forallb]. rewrite IH. unfold spaceless, toString, binary64_toString.
  now rewrite !ECMAScriptFacts.no_space_Number_toString.
Qed.

(** ** The polyline builder on the program's numbers *)

Lemma binary64_polyline_vertices (points : list (Pt float)) :
  (2 <= List.length points)%nat ->
  exists d, buildPolylinePath points = Returned d
            /\ path_vertices d = Some (map written points).
Proof.
  destruct points as [| first [| second rest]]; cbn [List.length]; try lia.
  intros _. apply polyline_vertices, binary64_spaceless.
Qed.

(** C4: [buildPolylinePath] never throws; for no point or one point it
    returns the empty string, which is no path; for two or more points it
    returns a path through every point, in the order of the list. *)
Theorem buildPolylinePath_short_or_visits (points : list (Pt float)) :
  (exists d, buildPolylinePath points = Returned d)
  /\ ((List.length points < 2)%nat ->
      buildPolylinePath points = Returned "" /\ path_vertices "" = None)
  /\ ((2 <= List.length points)%nat ->
      exists d, buildPolylinePath points = Returned d
                /\ path_vertices d = Some (map written points)).
Proof.
  destruct points as [| first [| second rest]].
  - split; [now exists "" |]. split; [now split |].
    cbn [List.length]. lia.
  - split; [now exists "" |]. split; [now split |].
    cbn [List.length]. lia.
  - destruct (binary64_polyline_vertices (first :: second :: rest)) as [d [Hd Hv]];
      [cbn [List.length]; lia |].
    split; [now exists d |]. split.
    + cbn [List.length]. lia.
    + intros _. now exists d.
Qed.

Lemma buildPolylinePath_short_or_visits_witness :
  (List.length [mkPt 1 2]%float < 2)%nat
  /\ buildPolylinePath [mkPt 1 2]%float = Returned ""
  /\ (2 <= List.length [mkPt 1 2; mkPt 3 4; mkPt 5.5 6]%float)%nat
  /\ exists d, buildPolylinePath [mkPt 1 2; mkPt 3 4; mkPt 5.5 6]%float = Returned d
               /\ path_vertices d = Some [("1", "2"); ("3", "4"); ("5.5", "6")].
Proof.
  refine (conj _ (conj _ (conj _ _))).
  - cbn [List.length]. lia.
  - apply (proj1 (proj2 (buildPolylinePath_short_or_visits [mkPt 1 2]%float))).
    cbn [List.length]. lia.
  - cbn [List.length]. lia.
  - apply (proj2 (proj2 (buildPolylinePath_short_or_visits
                           [mkPt 1 2; mkPt 3 4; mkPt 5.5 6]%float))).
    cbn [List.length]. lia.
Defined.

(** C8: the two strings [Flow] builds, from [points] and from the reversed
    copy of [points], are paths through the same points, the second in the
    reverse order of the first. *)
Theorem Flow_paths_reverse_order (points : list (Pt float)) :
  (2 <= List.length points)%nat ->
  exists d r, Flow_paths points = (Returned d, Returned r)
              /\ buildPolylinePath (List.rev points) = Returned r
              /\ path_vertices d = Some (map written points)
              /\ path_vertices r = Some (List.rev (map written points)).
Proof.
  intros Hlen. unfold Flow_paths.
  destruct (binary64_polyline_vertices points Hlen) as [d [Hd Hv]].
  assert (Hrlen : (2 <= List.length (List.rev points))%nat)
    by now rewrite List.length_rev.
  destruct (binary64_polyline_vertices (List.rev points) Hrlen) as [r [Hr Hrv]].
  exists d, r. rewrite Hd, Hr. repeat split; try assumption.
  now rewrite Hrv, List.map_rev.
Qed.

Lemma Flow_paths_reverse_order_witness :
  (2 <= List.length [mkPt 1020 510; mkPt 1048 510; mkPt 1032 510; mkPt 1060 510]%float)%nat
  /\ exists d r,
      Flow_paths [mkPt 1020 510; mkPt 1048 510; mkPt 1032 510; mkPt 1060 510]%float
      = (Returned d, Returned r)
      /\ buildPolylinePath
           (List.rev [mkPt 1020 510; mkPt 1048 510; mkPt 1032 510; mkPt 1060 510]%float)
         = Returned r
      /\ path_vertices d
         = Some [("1020", "510"); ("1048", "510"); ("1032", "510"); ("1060", "510")]
      /\ path_vertices r
         = Some [("1060", "510"); ("1032", "510"); ("1048", "510"); ("1020", "510")].
Proof.
  split.
  - cbn [List.length]. lia.
  - apply (Flow_paths_reverse_order
             [mkPt 1020 510; mkPt 1048 510; mkPt 1032 510; mkPt 1060 510]%float).
    cbn [List.length]. lia.
Defined.

(** ** The assertions and scenarios of the source, on the program's numbers *)

(** The three tests at the end of the source file. *)
Example test_buildLinePath :
  buildLinePath (mkPt 1 2)%float (mkPt 3 4)%float = "M 1 2 L 3 4".
Proof.
  vm_compute. reflexivity.
Qed.

Example test_midpoint :
  midpoint (mkPt 0 0)%float (mkPt 10 20)%float = (mkPt 5 10)%float.
Proof.
  vm_compute. reflexivity.
Qed.

Example test_anchorPoint :
  anchorPoint (mkRect 100 50 200 100)%float "top" = (mkPt 200 50)%float
  /\ anchorPoint (mkRect 100 50 200 100)%float "left" = (mkPt 100 100)%float.
Proof.
  vm_compute. split; reflexivity.
Qed.

(** The connector of the tunnel has four points: the right port of the
    first node, that port moved right by 28, the left port of the second
    node moved left by 28, and that left port. *)
Example wgPts_points :
  wgPts = [mkPt 1020 510; mkPt 1048 510; mkPt 1032 510; mkPt 1060 510]%float
  /\ buildPolylinePath wgPts = Returned "M 1020 510 L 1048 510 L 1032 510 L 1060 510".
Proof.
  vm_compute. split; reflexivity.
Qed.

(** The coordinates the three binary64 counterexamples differ in, as the
    program would print them. *)
Example standoff_twice_binary64_values :
  toString (x (standoff (standoff (mkPt 0.1 0)%float "right" 0.2%float)
                        "right" 0.3%float)) = "0.6000000000000001"
  /\ toString (x (standoff (mkPt 0.1 0)%float "right" (0.2 + 0.3)%float)) = "0.6".
Proof.
  vm_compute. split; reflexivity.
Qed.

Example standoff_back_binary64_values :
  toString (x (standoff (standoff (mkPt 0.1 0)%float "right" 0.2%float)
                        "left" 0.2%float)) = "0.10000000000000003".
Proof.
  vm_compute. reflexivity.
Qed.

Example midpoint_binary64_values :
  toString (x (midpoint (mkPt 0.1 0)%float (mkPt 0.7 0)%float)) = "0.4"
  /\ toString (x (midpoint (mkPt 0.7 0)%float (mkPt 0.1 0)%float))
     = "0.39999999999999997".
Proof.
  vm_compute. split; reflexivity.
Qed.

(** * The rest of the component *)

(** ** What the view shows *)

(** X1: in every state the view reaches, [focus] is one of the six phases,
    [focusCopy] has the entry the explanation panel reads, and exactly one
    chip is lit. *)
Theorem reachable_focus_has_copy (s : ViewState) :
  reachable s ->
  (1 <= focus s <= 6)%Z
  /\ (exists entry, lookup (focus s) focusCopy = Some entry)
  /\ List.length (activeSteps s) = 1%nat.
Proof.
  intros Hs.
  assert (Hin : In (focus s) (map fst steps)).
  { induction Hs as [| s c _ IH Hc].
    - cbn. tauto.
    - destruct c as [step | |]; cbn [click focus]; try exact IH.
      cbn [clickable] in Hc. now apply List.in_map. }
  cbn in Hin.
  destruct Hin as [E | [E | [E | [E | [E | [E | []]]]]]];
    unfold activeSteps; rewrite <- E;
    (split; [lia | split; [eexists; reflexivity | reflexivity]]).
Qed.

Lemma reachable_focus_has_copy_witness :
  let s := click (click initialState ClickPhaseMode) (ClickStep (3, "Lock the Vault")%Z) in
  reachable s
  /\ (1 <= focus s <= 6)%Z
  /\ (exists entry, lookup (focus s) focusCopy = Some entry)
  /\ List.length (activeSteps s) = 1%nat.
Proof.
  intros s.
  assert (R : reachable s).
  { apply reachable_click; [apply reachable_click; [apply reachable_initial | exact I] |].
    cbn. tauto. }
  split; [exact R | exact (reachable_focus_has_copy s R)].
Defined.

(** X2: everything is shown exactly in overview mode or at the last phase:
    all six flags are set if and only if [overviewMode] holds or [focus] is
    at least 6.  In particular the initial state shows everything, and so
    does every state until phase mode is on with an earlier phase. *)
Theorem show_everything_iff (s : ViewState) :
  flags (show s) = [true; true; true; true; true; true]
  <-> overviewMode s = true \/ (6 <= focus s)%Z.
Proof.
  unfold flags, show. cbn [hardening wireguard lockVault dns waf crowdsec].
  destruct (overviewMode s); cbn [orb].
  - split; [now left | reflexivity].
  - split.
    + intros E. right. injection E as E1 E2 E3 E4 E5 E6.
      apply Z.geb_le in E6. lia.
    + intros [E | E]; [discriminate |].
      repeat match goal with
             | |- context [(focus s >=? ?k)%Z] =>
                 replace (focus s >=? k)%Z with true
                   by (symmetry; apply Z.geb_le; lia)
             end.
      reflexivity.
Qed.

(** X3: in phase mode the flags of the phases up to [focus] are set and the
    later ones are not: at phase [n] the six flags are [n] times [true]
    followed by [6 - n] times [false]. *)
Theorem show_phase_mode_prefix (s : ViewState) :
  overviewMode s = false -> (1 <= focus s <= 6)%Z ->
  flags (show s)
  = (repeat true (Z.to_nat (focus s)) ++ repeat false (Z.to_nat (6 - focus s)))%list.
Proof.
  intros Hm Hf. unfold flags, show.
  cbn [hardening wireguard lockVault dns waf crowdsec]. rewrite Hm. cbn [orb].
  assert (E : (focus s = 1 \/ focus s = 2 \/ focus s = 3 \/ focus s = 4
               \/ focus s = 5 \/ focus s = 6)%Z) by lia.
  destruct E as [E | [E | [E | [E | [E | E]]]]]; rewrite E; reflexivity.
Qed.

Lemma show_phase_mode_prefix_witness :
  flags (show {| focus := 2; overviewMode := false |})
  = [true; true; false; false; false; false].
Proof.
  apply (show_phase_mode_prefix {| focus := 2; overviewMode := false |});
    cbn [focus overviewMode]; [reflexivity | lia].
Defined.

(** X4: a later phase hides nothing, and neither does overview mode: what
    is drawn in a state is drawn in every state with a larger or equal
    [focus], whatever its mode, and in overview mode at any [focus]. *)
Theorem visible_monotone (s s' : ViewState) :
  (overviewMode s = overviewMode s' /\ (focus s <= focus s')%Z)
  \/ overviewMode s' = true ->
  forall id, In id (visible (show s)) -> In id (visible (show s')).
Proof.
  intros Hle id. unfold visible. rewrite !List.in_map_iff.
  intros [[id' b] [Eid Hin]]. cbn [fst] in Eid. subst id'.
  apply List.filter_In in Hin as [Hin Hb]. cbn [snd] in Hb. subst b.
  exists (id, true). split; [reflexivity |].
  apply List.filter_In. split; [| reflexivity].
  assert (Hflag : forall k, (overviewMode s || (focus s >=? k)%Z) = true ->
                            (overviewMode s' || (focus s' >=? k)%Z) = true).
  { intros k Hk. destruct Hle as [[Em Hf] | Em]; rewrite <- ?Em in *.
    - apply orb_true_iff in Hk as [Hk | Hk]; apply orb_true_iff; [now left | right].
      apply Z.geb_le. apply Z.geb_le in Hk. lia.
    - rewrite Em. reflexivity. }
  unfold drawn, show in *. cbn [dns waf wireguard lockVault crowdsec] in *.
  cbn [In] in *.
  repeat match goal with
         | H : _ \/ _ |- _ => destruct H as [H | H]
         | H : False |- _ => destruct H
         end;
    injection Hin as Eid Eb; subst id; apply Hflag in Eb; rewrite Eb; tauto.
Qed.

Lemma visible_monotone_witness :
  In "wg" (visible (show {| focus := 2; overviewMode := false |}))
  /\ In "wg" (visible (show {| focus := 5; overviewMode := false |})).
Proof.
  assert (H2 : In "wg" (visible (show {| focus := 2; overviewMode := false |})))
    by (cbn; tauto).
  split; [exact H2 |].
  apply (visible_monotone {| focus := 2; overviewMode := false |}
                          {| focus := 5; overviewMode := false |});
    [left; cbn [focus overviewMode]; split; [reflexivity | lia] | exact H2].
Defined.

(** X5: the first phase draws no flow.  In phase mode at [focus = 1]
    nothing but the boxes is drawn, since nothing is guarded by the flag
    [hardening]; at the later phases the tunnel, the blocked flow, the DNS
    flow, the HTTPS and ACME flows and the loop appear in that order. *)
Theorem visible_per_phase :
  let at_phase n := visible (show {| focus := n; overviewMode := false |}) in
  at_phase 1%Z = []
  /\ at_phase 2%Z = ["wg"]
  /\ at_phase 3%Z = ["wg"; "blocked"]
  /\ at_phase 4%Z = ["dns"; "wg"; "blocked"]
  /\ at_phase 5%Z = ["dns"; "https"; "wg"; "acme"; "blocked"]
  /\ at_phase 6%Z = ["dns"; "https"; "wg"; "acme"; "blocked"; "crowdsec"]
  /\ (forall n, visible (show {| focus := n; overviewMode := true |})
                = ["dns"; "https"; "wg"; "acme"; "blocked"; "crowdsec"]).
Proof.
  repeat split.
Qed.

(** X6: in overview mode the chips change the explanation only: after any
    number of clicks on chips, [show] is what it was. *)
Theorem clicks_on_chips_in_overview_mode (chips : list (Z * string)) (s : ViewState) :
  overviewMode s = true ->
  show (fold_left click (map ClickStep chips) s) = show s
  /\ overviewMode (fold_left click (map ClickStep chips) s) = true.
Proof.
  revert s. induction chips as [| chip chips IH]; intros s Hm; [now split |].
  cbn [map fold_left].
  destruct (IH (click s (ClickStep chip)) Hm) as [IHshow IHmode].
  split; [| exact IHmode].
  rewrite IHshow. unfold show. cbn [click overviewMode focus]. rewrite Hm. reflexivity.
Qed.

Lemma clicks_on_chips_in_overview_mode_witness :
  show (fold_left click (map ClickStep [(2, "WireGuard tunnel"); (4, "Custom DNS")]%Z)
                  initialState)
  = show initialState.
Proof.
  apply (clicks_on_chips_in_overview_mode
           [(2, "WireGuard tunnel"); (4, "Custom DNS")]%Z initialState).
  reflexivity.
Defined.

(** ** Connectors and ports *)

Section ConnectorProperties.

Context {num : Type} `{Number num}.

(** X7: flows connect to ports only.  Between two sides that have ports,
    [routed] starts at the very port [PortDots] draws for the start side of
    the start box and ends at the port it draws for the end side of the
    end box. *)
Theorem routed_connects_drawn_ports
        (startRect : Rect num) (startSide : Side)
        (endRect : Rect num) (endSide : Side) (via : list (Pt num)) :
  recognized startSide -> recognized endSide ->
  exists first inner last,
    routed startRect startSide endRect endSide via = (first :: inner ++ [last])%list
    /\ In (startSide, first) (PortDots startRect)
    /\ In (endSide, last) (PortDots endRect).
Proof.
  intros Hs He.
  exists (anchorPoint startRect startSide),
    (standoff (anchorPoint startRect startSide) startSide lit_28
       :: via ++ [standoff (anchorPoint endRect endSide) endSide lit_28])%list,
    (anchorPoint endRect endSide).
  split.
  - unfold routed. cbn [List.app]. rewrite <- List.app_assoc. reflexivity.
  - unfold recognized, PortDots in *. cbn [In].
    split; [destruct Hs as [E | [E | [E | E]]] | destruct He as [E | [E | [E | E]]]];
      subst; tauto.
Qed.

(** X8: a connector leaves and reaches its boxes at right angles.  The
    first segment of [routed], from the start port to its stand-off point,
    is vertical for the sides top and bottom and horizontal for the sides
    left and right, and so is the last segment, for the end side. *)
Theorem routed_perpendicular_ends
        (startRect : Rect num) (startSide : Side)
        (endRect : Rect num) (endSide : Side) (via : list (Pt num)) :
  exists start startOut endOut end_,
    routed startRect startSide endRect endSide via
    = ([start; startOut] ++ via ++ [endOut; end_])%list
    /\ (startSide = "top" \/ startSide = "bottom" -> x startOut = x start)
    /\ (startSide = "left" \/ startSide = "right" -> y startOut = y start)
    /\ (endSide = "top" \/ endSide = "bottom" -> x endOut = x end_)
    /\ (endSide = "left" \/ endSide = "right" -> y endOut = y end_).
Proof.
  exists (anchorPoint startRect startSide),
    (standoff (anchorPoint startRect startSide) startSide lit_28),
    (standoff (anchorPoint endRect endSide) endSide lit_28),
    (anchorPoint endRect endSide).
  split; [reflexivity |].
  repeat split; intros [E | E]; subst; reflexivity.
Qed.

(** X9: the reversed connector is the connector of the opposite direction:
    reversing what [routed] returns from one box to another gives what
    [routed] returns from the other box to the one through the reversed way
    points. *)
Theorem routed_reversed
        (startRect : Rect num) (startSide : Side)
        (endRect : Rect num) (endSide : Side) (via : list (Pt num)) :
  List.rev (routed startRect startSide endRect endSide via)
  = routed endRect endSide startRect startSide (List.rev via).
Proof.
  unfold routed. rewrite !List.rev_app_distr. reflexivity.
Qed.

(** X10: sides without a port.  For a side that is none of the four names
    [standoff] returns its point unmoved, whatever the distance, and a
    connector between two such sides starts with the centre of the start
    box twice and ends with the centre of the end box twice. *)
Theorem routed_unrecognized_sides
        (startRect : Rect num) (startSide : Side)
        (endRect : Rect num) (endSide : Side) (via : list (Pt num)) :
  ~ recognized startSide -> ~ recognized endSide ->
  (forall (p : Pt num) (d : num), standoff p startSide d = p)
  /\ routed startRect startSide endRect endSide via
     = ([rectCenter startRect; rectCenter startRect] ++ via
        ++ [rectCenter endRect; rectCenter endRect])%list.
Proof.
  unfold recognized. intros Hs He.
  assert (Hside : forall side,
             ~ (side = "top" \/ side = "right" \/ side = "bottom" \/ side = "left") ->
             String.eqb side "top" = false /\ String.eqb side "right" = false
             /\ String.eqb side "bottom" = false /\ String.eqb side "left" = false).
  { intros side Hn. repeat split; apply String.eqb_neq; intros E; apply Hn; tauto. }
  destruct (Hside _ Hs) as [S1 [S2 [S3 S4]]].
  destruct (Hside _ He) as [E1 [E2 [E3 E4]]].
  split.
  - intros p d. unfold standoff. now rewrite S1, S2, S3, S4.
  - unfold routed, standoff, anchorPoint.
    now rewrite S1, S2, S3, S4, E1, E2, E3, E4.
Qed.

End ConnectorProperties.

Lemma routed_connects_drawn_ports_witness :
  recognized "right" /\ recognized "left"
  /\ exists first inner last,
      routed bouncer "right" vault "left" [] = (first :: inner ++ [last])%list
      /\ In ("right", first) (PortDots bouncer)
      /\ In ("left", last) (PortDots vault).
Proof.
  assert (Hr : recognized "right") by (unfold recognized; tauto).
  assert (Hl : recognized "left") by (unfold recognized; tauto).
  split; [exact Hr | split; [exact Hl |]].
  exact (routed_connects_drawn_ports bouncer "right" vault "left" [] Hr Hl).
Defined.

Lemma routed_unrecognized_sides_witness :
  ~ recognized "centre" /\ ~ recognized "middle"
  /\ routed bouncer "centre" vault "middle" []
     = [rectCenter bouncer; rectCenter bouncer; rectCenter vault; rectCenter vault].
Proof.
  assert (Hc : ~ recognized "centre")
    by (unfold recognized; intros [E | [E | [E | E]]]; discriminate).
  assert (Hm : ~ recognized "middle")
    by (unfold recognized; intros [E | [E | [E | E]]]; discriminate).
  split; [exact Hc | split; [exact Hm |]].
  exact (proj2 (routed_unrecognized_sides bouncer "centre" vault "middle" [] Hc Hm)).
Defined.

(** ** Paths of connectors *)

(** X11: a connector always has a path.  Whatever the boxes, sides and way
    points, [buildPolylinePath] of what [routed] returns is a string (never
    the empty string, never an exception) that reads back as the points of
    the connector in order, [4 + via.length] of them. *)
Theorem routed_has_path
        (startRect : Rect float) (startSide : Side)
        (endRect : Rect float) (endSide : Side) (via : list (Pt float)) :
  exists d vertices,
    buildPolylinePath (routed startRect startSide endRect endSide via) = Returned d
    /\ d <> ""
    /\ path_vertices d = Some vertices
    /\ vertices = map written (routed startRect startSide endRect endSide via)
    /\ List.length vertices = (4 + List.length via)%nat.
Proof.
  assert (Hlen : List.length (routed startRect startSide endRect endSide via)
                 = (4 + List.length via)%nat).
  { unfold routed. cbn [List.app List.length].
    rewrite List.length_app. cbn [List.length]. lia. }
  destruct (binary64_polyline_vertices
              (routed startRect startSide endRect endSide via)) as [d [Hd Hv]];
    [lia |].
  exists d, (map written (routed startRect startSide endRect endSide via)).
  repeat split; try assumption.
  - intros E. rewrite E in Hv. discriminate.
  - now rewrite List.length_map.
Qed.

Lemma polyline_of_pair {num : Type} `{ToString num} (a b : Pt num) :
  buildPolylinePath [a; b] = Returned (buildLinePath a b).
Proof.
  unfold buildPolylinePath, buildLinePath, lineTo.
  cbn [List.length Nat.ltb Nat.leb map String.concat].
  now rewrite !append_assoc.
Qed.

(** X12: the line builder draws its segment: the string [buildLinePath]
    returns reads back as its first point followed by its second. *)
Theorem buildLinePath_vertices (a b : Pt float) :
  path_vertices (buildLinePath a b) = Some [written a; written b].
Proof.
  destruct (polyline_vertices a b [] (binary64_spaceless [a; b])) as [d [Hd Hv]].
  rewrite polyline_of_pair in Hd. injection Hd as Hd. subst d. exact Hv.
Qed.



(** ** Degenerate midpoints *)

Lemma binary64_finite_cases (a : float) :
  is_finite a = true ->
  (exists s, Prim2SF a = S754_zero s) \/ (exists s m e, Prim2SF a = S754_finite s m e).
Proof.
  unfold is_finite, is_nan, is_infinity. rewrite !eqb_spec, abs_spec.
  destruct (Prim2SF a) as [s | s | | s m e]; intros Hf.
  - left. now exists s.
  - destruct s; discriminate.
  - discriminate.
  - right. now exists s, m, e.
Qed.

(** A finite binary64 value minus itself is [+0]. *)
Lemma binary64_sub_diag (a : float) : is_finite a = true -> (a - a)%float = 0%float.
Proof.
  intros Hf. apply Prim2SF_inj. rewrite sub_spec.
  change (Prim2SF 0%float) with (S754_zero false).
  destruct (binary64_finite_cases a Hf) as [[s E] | [s [m [e E]]]]; rewrite E.
  - now destruct s.
  - unfold SF64sub, SFsub. now rewrite Z.sub_diag.
Qed.

(** X14: on the program's numbers the midpoint of a point and itself is
    that point, for every point whose coordinates are finite and not
    [-0]; no rounding occurs. *)
Theorem midpoint_of_a_point_with_itself (a : Pt float) :
  is_finite (x a) = true -> is_finite (y a) = true ->
  x a <> neg_zero -> y a <> neg_zero ->
  midpoint a a = a.
Proof.
  destruct a as [ax ay]. cbn [x y]. intros Fx Fy Zx Zy.
  unfold midpoint. cbn [x y]. cbv [add sub mul lit_0_5 binary64].
  rewrite !binary64_sub_diag by assumption.
  change (0 * 0.5)%float with 0%float.
  now rewrite !binary64_add_0 by assumption.
Qed.

Lemma midpoint_of_a_point_with_itself_witness :
  midpoint (mkPt 0.1 510)%float (mkPt 0.1 510)%float = (mkPt 0.1 510)%float.
Proof.
  apply (midpoint_of_a_point_with_itself (mkPt 0.1 510)%float);
    cbn [x y]; try reflexivity;
    apply binary64_eqb_false_neq; vm_compute; reflexivity.
Defined.

(** An infinite coordinate is lost: the midpoint of a point at infinity and
    itself has NaN for that coordinate. *)
Example midpoint_of_infinity :
  midpoint (mkPt infinity 0)%float (mkPt infinity 0)%float = (mkPt nan 0)%float.
Proof.
  vm_compute. reflexivity.
Qed.

(** ** Ports and stand-off points in exact arithmetic *)







(** ** The diagram keeps its connectors off its boxes *)

(** X16: in the diagram as laid out, no segment of the five connectors
    runs through a box: for each of the four boxes, both ends of every
    segment of every connector lie on the outer side of the line of one
    edge of the box. *)
Theorem connectors_keep_off_boxes :
  forall points r segment,
    In points connectors -> In r boxes -> In segment (segments points) ->
    keeps_off r segment = true.
Proof.
  assert (H : forallb (fun points =>
                forallb (fun r => forallb (keeps_off r) (segments points)) boxes)
                connectors = true) by (vm_compute; reflexivity).
  intros points r segment Hp Hr Hs.
  rewrite forallb_forall in H. specialize (H points Hp).
  rewrite forallb_forall in H. specialize (H r Hr).
  rewrite forallb_forall in H. exact (H segment Hs).
Qed.

Lemma connectors_keep_off_boxes_witness :
  keeps_off internet (mkPt 458 265, mkPt 430 280)%float = true.
Proof.
  apply (connectors_keep_off_boxes httpsPts internet (mkPt 458 265, mkPt 430 280)%float).
  - cbn. tauto.
  - cbn. tauto.
  - right. left. vm_compute. reflexivity.
Defined.
